(** * figiMapping: a shallow embedding of the identifier pipeline

    The repository has three small components:
    - [src/pulling_data_InvIdent.py]: [pull_data_from_database], which opens
      an ODBC connection, builds a parameterised [IN (...)] query and reads
      it into a table;
    - [src/mappingExchangeId_Code.py]: [map_exchange_id_to_code], which adds
      an [ExchangeCode] column to a table;
    - [src/figiAPI.py]: [get_figi] and the module-level script that posts a
      literal table to OpenFIGI and writes the answer to a spreadsheet.

    Python code is embedded as computations in a state-and-exception monad.
    What the code does to the outside (console, database driver, HTTP, file
    system) is recorded as a list of events; what the outside answers is
    read from an explicit environment record. *)

From Stdlib Require Import ZArith Lia Ascii String.
From stdpp Require Import base option list strings gmap.

Local Open Scope string_scope.
Local Open Scope Z_scope.
Local Open Scope list_scope.

(** ** Python exceptions *)

(** The exception classes the three modules can meet.  [pyodbc]'s
    [InterfaceError], [OperationalError], ... all derive from
    [pyodbc.Error] and are not told apart by the code, so one class stands
    for the family. *)
Inductive exn_class :=
| PyodbcError            (* pyodbc.Error and its subclasses *)
| PandasDatabaseError    (* pandas.errors.DatabaseError *)
| HTTPError              (* requests.exceptions.HTTPError *)
| RequestsConnectionError (* requests.exceptions.ConnectionError *)
| JSONDecodeError
| ValueError
| KeyError
| AttributeError
| OSError.

Inductive exn :=
| Exn (cls : exn_class) (msg : string)
| SystemExit (code : Z).   (* raised by sys.exit; a BaseException *)

(** [except pyodbc.Error]. *)
Definition is_pyodbc_error (e : exn) : bool :=
  match e with
  | Exn PyodbcError _ => true
  | _ => false
  end.

(** [except Exception]: everything but [SystemExit]. *)
Definition is_Exception (e : exn) : bool :=
  match e with
  | Exn _ _ => true
  | SystemExit _ => false
  end.

(** ** Tables *)

(** A cell of a pandas column.  [CNull] is the missing marker (NaN/None). *)
Inductive cell :=
| CInt (z : Z)
| CStr (s : string)
| CNull.

Definition Series := list cell.

(** A DataFrame: an index of [nrows] positions and named columns, in
    column order. *)
Record DataFrame := mkDataFrame {
  nrows : nat;
  columns : list (string * Series)
}.

(** [df[name]]: the column, [None] standing for [KeyError]. *)
Fixpoint lookup_column (name : string) (cols : list (string * Series)) : option Series :=
  match cols with
  | [] => None
  | (c, s) :: rest => if String.eqb c name then Some s else lookup_column name rest
  end.

Definition getitem (df : DataFrame) (name : string) : option Series :=
  lookup_column name (columns df).

(** [df[name] = s]: an existing column is replaced where it stands, a new
    one is appended after the others. *)
Fixpoint assign_column (name : string) (s : Series) (cols : list (string * Series))
  : list (string * Series) :=
  match cols with
  | [] => [(name, s)]
  | (c, old) :: rest =>
      if String.eqb c name then (c, s) :: rest
      else (c, old) :: assign_column name s rest
  end.

Definition setitem (df : DataFrame) (name : string) (s : Series) : DataFrame :=
  {| nrows := nrows df; columns := assign_column name s (columns df) |}.

(** [len(df)]. *)
Definition len (df : DataFrame) : nat := nrows df.

(** [df.head()]: the first five rows. *)
Definition head (df : DataFrame) : DataFrame :=
  {| nrows := Nat.min 5 (nrows df);
     columns := map (fun '(c, s) => (c, take 5 s)) (columns df) |}.

(** Every column is as long as the index. *)
Definition well_formed (df : DataFrame) : Prop :=
  Forall (fun cs => length (snd cs) = nrows df) (columns df).

(** The column names are pairwise distinct.  [lookup_column] and
    [assign_column] speak for pandas on such tables: where a name is
    repeated, [df[name]] is itself a table (and [.map(dict)] on it raises
    [TypeError]), and an assignment writes every column of that name. *)
Definition unique_columns (df : DataFrame) : Prop :=
  NoDup (map fst (columns df)).

(** ** JSON values *)

#[local] Set Warnings "-register-all".

Inductive json :=
| JNull
| JNum (z : Z)
| JStr (s : string)
| JArr (items : list json)
| JObj (fields : list (string * json)).

Definition cell_to_json (c : cell) : json :=
  match c with
  | CInt z => JNum z
  | CStr s => JStr s
  | CNull => JNull
  end.

(** [df.to_dict(orient='records')]: one object per row, keyed by column. *)
Definition to_dict_records (df : DataFrame) : json :=
  JArr (map (fun i =>
               JObj (map (fun '(c, s) => (c, cell_to_json (default CNull (s !! i))))
                         (columns df)))
            (seq 0 (nrows df))).

(** ** Values that reach the console *)

Inductive pyval :=
| VStr (s : string)
| VInt (z : Z)
| VStrList (l : list string)
| VExc (e : exn)
| VNone
| VFrame (df : DataFrame).

(** One argument of [print]: the pieces of an f-string, each rendered by
    [str()] and concatenated.  A plain argument is a single piece. *)
Definition fstring := list pyval.

Definition connection := nat.

(** What the program does to the outside, in program order. *)
Inductive event :=
| EvPrint (args : list fstring)
| EvConnect (conn_str : string)
| EvReadSql (conn : connection) (sql : string) (params : list string)
| EvClose (conn : connection)
| EvPost (url : string) (headers : list (string * string)) (data : string)
| EvToExcel (path : string) (df : DataFrame).

(** ** The state-and-exception monad *)

Inductive result (A : Type) :=
| Ok (a : A)
| Raise (e : exn).
Arguments Ok {A} a.
Arguments Raise {A} e.

Definition M (S A : Type) : Type := S -> S * result A.

Definition ret {S A} (a : A) : M S A := fun s => (s, Ok a).

Definition bind {S A B} (m : M S A) (k : A -> M S B) : M S B :=
  fun s => match m s with
           | (s', Ok a) => k a s'
           | (s', Raise e) => (s', Raise e)
           end.

Definition raise {S A} (e : exn) : M S A := fun s => (s, Raise e).

Definition gets {S A} (f : S -> A) : M S A := fun s => (s, Ok (f s)).

Definition modify {S} (f : S -> S) : M S unit := fun s => (f s, Ok tt).

(** Lifting an outside answer into the monad. *)
Definition answer {S A} (r : exn + A) : M S A :=
  match r with
  | inl e => raise e
  | inr a => ret a
  end.

(** [try: body / except <cls> as e: handler e]. *)
Definition try_except {S A} (body : M S A) (handles : exn -> bool)
    (handler : exn -> M S A) : M S A :=
  fun s => match body s with
           | (s', Ok a) => (s', Ok a)
           | (s', Raise e) => if handles e then handler e s' else (s', Raise e)
           end.

(** [try: body / finally: fin].  [fin] always runs; an exception raised in
    [fin] replaces the outcome of [body]. *)
Definition try_finally {S A} (body : M S A) (fin : M S unit) : M S A :=
  fun s => match body s with
           | (s', r) =>
               match fin s' with
               | (s'', Ok _) => (s'', r)
               | (s'', Raise e) => (s'', Raise e)
               end
           end.

Declare Scope py_scope.
Delimit Scope py_scope with py.
Notation "x <- m ;; k" := (bind m (fun x => k))
  (at level 100, m at next level, right associativity) : py_scope.
Notation "m ;; k" := (bind m (fun _ => k))
  (at level 100, right associativity) : py_scope.

(** ** Program state *)

Definition loc := positive.

(** Objects that are passed by reference. *)
Inductive obj :=
| ODataFrame (df : DataFrame)
| ODict (d : gmap Z string).

(** [locals_conn] is the binding of the local variable [conn] in the
    running call of [pull_data_from_database] ([None]: not bound, which is
    what ['conn' in locals()] tests); [heap] holds the objects shared by
    reference; [out] is the event trace. *)
Record state := mkState {
  locals_conn : option connection;
  heap : gmap loc obj;
  out : list event
}.

Definition Py (A : Type) : Type := M state A.

Definition emit (e : event) : Py unit :=
  modify (fun s => {| locals_conn := locals_conn s; heap := heap s; out := out s ++ [e] |}).

Definition print (args : list fstring) : Py unit := emit (EvPrint args).

Definition bind_conn (c : connection) : Py unit :=
  modify (fun s => {| locals_conn := Some c; heap := heap s; out := out s |}).

Definition initial_state : state :=
  {| locals_conn := None; heap := ∅; out := [] |}.

(** ** Strings *)

(** [sep.join(l)]. *)
Fixpoint join (sep : string) (l : list string) : string :=
  match l with
  | [] => ""
  | x :: rest =>
      match rest with
      | [] => x
      | _ :: _ => x +:+ sep +:+ join sep rest
      end
  end.

(** Number of occurrences of a character. *)
Fixpoint count_char (c : ascii) (s : string) : nat :=
  match s with
  | EmptyString => 0%nat
  | String a s' => ((if Ascii.eqb a c then 1 else 0) + count_char c s')%nat
  end.

Fixpoint strip_prefix (p s : string) : option string :=
  match p with
  | EmptyString => Some s
  | String a p' =>
      match s with
      | EmptyString => None
      | String b s' => if Ascii.eqb a b then strip_prefix p' s' else None
      end
  end.

Definition is_digit (c : ascii) : bool :=
  let n := nat_of_ascii c in (48 <=? n)%nat && (n <=? 57)%nat.

Fixpoint read_digits (s : string) (acc : nat) : nat * string :=
  match s with
  | EmptyString => (acc, s)
  | String c s' =>
      if is_digit c then read_digits s' (10 * acc + (nat_of_ascii c - 48))%nat
      else (acc, s)
  end.

(** T-SQL [RIGHT(s, n)]: the last [n] characters. *)
Definition RIGHT (s : string) (n : nat) : string :=
  String.substring (String.length s - n) n s.

(** Python's [str()] of what [os.getenv] returns: [None] prints as ["None"]. *)
Definition str_of_env (v : option string) : string :=
  match v with
  | Some s => s
  | None => "None"
  end.

(** ** The database behind [pd.read_sql_query] *)

(** A row of the [InvestmentIdentifier] table. *)
Record db_row := mkRow {
  InvestmentId : string;
  ExchangeId : Z;
  CurrencyId : string;
  Identifier : string;
  IdentifierType : Z
}.

(** The statement the engine understands:
    [SELECT top <n> InvestmentId, ExchangeId, RIGHT(CurrencyId, 3),
     Identifier FROM InvestmentIdentifier WHERE IdentifierType = 2 and
     Identifier IN (?, ..., ?)].  It is read from the query text: the row
    limit from the digits after [top], the number of parameter markers from
    the [IN] list.  An empty [IN ()] list is a syntax error. *)
Fixpoint parse_more_markers (s : string) : option nat :=
  match s with
  | String ")" EmptyString => Some 0%nat
  | String "," (String " " (String "?" s')) => S <$> parse_more_markers s'
  | _ => None
  end.

Definition parse_markers (s : string) : option nat :=
  match s with
  | String "?" s' => S <$> parse_more_markers s'
  | _ => None
  end.

Definition select_columns : string :=
  " InvestmentId, ExchangeId, RIGHT(CurrencyId, 3), Identifier FROM InvestmentIdentifier WHERE IdentifierType = 2 and Identifier IN (".

Definition parse_select (sql : string) : option (nat * nat) :=
  r1 ← strip_prefix "SELECT top " sql;
  match r1 with
  | String c _ =>
      if is_digit c then
        let '(n, r2) := read_digits r1 0 in
        r3 ← strip_prefix select_columns r2;
        k ← parse_markers r3;
        Some (n, k)
      else None
  | EmptyString => None
  end.

(** [IN] is read as equality of strings, as under a binary collation on
    values without trailing blanks. *)
Definition matches (params : list string) (r : db_row) : bool :=
  (IdentifierType r =? 2) && bool_decide (Identifier r ∈ params).

(** The result set as a table; the computed column has no name. *)
Definition frame_of_rows (rows : list db_row) : DataFrame :=
  {| nrows := length rows;
     columns := [ ("InvestmentId", map (fun r => CStr (InvestmentId r)) rows);
                  ("ExchangeId", map (fun r => CInt (ExchangeId r)) rows);
                  ("", map (fun r => CStr (RIGHT (CurrencyId r) 3)) rows);
                  ("Identifier", map (fun r => CStr (Identifier r)) rows) ] |}.

(** What the fetcher's surroundings answer. *)
Record db_world := mkWorld {
  getenv : string -> option string;             (* os.getenv *)
  pyodbc_connect : string -> exn + connection;  (* pyodbc.connect *)
  table : list db_row;                          (* InvestmentIdentifier *)
  query_fault : option exn                      (* a failure while the query runs *)
}.

(** [pd.read_sql_query(sql, conn, params=params)] against the world's table. *)
Definition execute (w : db_world) (sql : string) (params : list string) : exn + DataFrame :=
  match query_fault w with
  | Some e => inl e
  | None =>
      match parse_select sql with
      | None => inl (Exn PandasDatabaseError "Execution failed on sql: incorrect syntax")
      | Some (n, k) =>
          if (k =? length params)%nat
          then inr (frame_of_rows (take n (filter (fun r => matches params r = true) (table w))))
          else inl (Exn PandasDatabaseError "Execution failed on sql: wrong number of parameters")
      end
  end.

(** ** [src/pulling_data_InvIdent.py] *)

Definition conn_str_of (w : db_world) : string :=
  "DRIVER={ODBC Driver 17 for SQL Server};"
  +:+ "SERVER=" +:+ str_of_env (getenv w "SERVER") +:+ ";"
  +:+ "DATABASE=" +:+ str_of_env (getenv w "DATABASE") +:+ ";"
  +:+ "UID=" +:+ str_of_env (getenv w "USERNAME") +:+ ";"
  +:+ "PWD=" +:+ str_of_env (getenv w "PASSWORD").

(** [', '.join(['?'] * len(ids_to_search))]. *)
Definition placeholders (ids_to_search : list string) : string :=
  join ", " (replicate (length ids_to_search) "?").

Definition sql_query (ids_to_search : list string) : string :=
  "SELECT top 10 InvestmentId, ExchangeId, RIGHT(CurrencyId, 3), Identifier FROM InvestmentIdentifier WHERE IdentifierType = 2 and Identifier IN ("
  +:+ placeholders ids_to_search +:+ ")".

Section Fetcher.
Variable w : db_world.
Local Open Scope py_scope.

(** Lines 25-56: the body of the [try]. *)
Definition pull_body (ids_to_search : list string) : Py DataFrame :=
  let conn_str := conn_str_of w in
  emit (EvConnect conn_str);;
  conn <- answer (pyodbc_connect w conn_str);;
  bind_conn conn;;
  print [[VStr "Connection established successfully using SQL Auth!"]];;
  let sql := sql_query ids_to_search in
  print [[VStr "Executing SQL: "; VStr sql]];;
  print [[VStr "With parameters: "; VStrList ids_to_search]];;
  emit (EvReadSql conn sql ids_to_search);;
  sqlPulledIds <- answer (execute w sql ids_to_search);;
  print [[VStr "Retrieved "; VInt (Z.of_nat (len sqlPulledIds)); VStr " rows."]];;
  ret sqlPulledIds.

(** Lines 58-60: [except pyodbc.Error as e]. *)
Definition pull_handler (e : exn) : Py DataFrame :=
  print [[VStr "Error connecting to database: "]; [VExc e]];;
  raise (SystemExit 1).

(** Lines 62-65: [finally]. *)
Definition pull_finally : Py unit :=
  c <- gets locals_conn;;
  match c with
  | Some conn =>
      emit (EvClose conn);;
      print [[VStr "Connection closed."]]
  | None => ret tt
  end.

(** Lines 9-65.  A call starts with a fresh frame, in which [conn] is
    not bound; [try]/[except]/[finally] nest as in Python: the handler
    guards the whole body, connection and query alike, and the [finally]
    clause runs after it on every way out. *)
Definition pull_data_from_database (ids_to_search : list string) : Py DataFrame :=
  modify (fun s => {| locals_conn := None; heap := heap s; out := out s |});;
  try_finally
    (try_except (pull_body ids_to_search) is_pyodbc_error pull_handler)
    pull_finally.

(** [main.py]. *)
Definition id_list : list string :=
  ["US3205175017"; "US78462F1030"; "US0378331005"].

Definition main : Py unit :=
  print [[VStr "Starting data pull..."]];;
  sqlPulledIds <- pull_data_from_database id_list;;
  print [[VStr "Data pull complete."]];;
  print [[VFrame (head sqlPulledIds)]].
End Fetcher.

(** How the interpreter ends a script: status 0 when the module body runs
    to its end, the given status on [sys.exit], status 1 after the
    traceback of any other uncaught exception. *)
Definition exit_status {A} (r : result A) : Z :=
  match r with
  | Ok _ => 0
  | Raise (SystemExit code) => code
  | Raise (Exn _ _) => 1
  end.

Definition run {A} (p : Py A) : list event * result A :=
  let '(s, r) := p initial_state in (out s, r).

(** The queries handed to [pd.read_sql_query] and the connections closed,
    read off a trace. *)
Definition issued_queries (tr : list event) : list (string * list string) :=
  omap (fun ev => match ev with
                  | EvReadSql _ sql params => Some (sql, params)
                  | _ => None
                  end) tr.

Definition closed_connections (tr : list event) : list connection :=
  omap (fun ev => match ev with
                  | EvClose c => Some c
                  | _ => None
                  end) tr.

Definition connect_attempts (tr : list event) : list string :=
  omap (fun ev => match ev with
                  | EvConnect cs => Some cs
                  | _ => None
                  end) tr.

(** ** [src/mappingExchangeId_Code.py] *)

(** One step of [Series.map(dict)]: the value under the key, the missing
    marker when the dictionary has no such key. *)
Definition lookup_code (exchange_mapping : gmap Z string) (c : cell) : cell :=
  match c with
  | CInt z =>
      match exchange_mapping !! z with
      | Some code => CStr code
      | None => CNull
      end
  | _ => CNull
  end.

Definition Series_map (s : Series) (exchange_mapping : gmap Z string) : Series :=
  map (lookup_code exchange_mapping) s.

(** The integers a float64 holds exactly.  A pandas column with a missing
    value is float64, and [Series.map] then compares the dictionary's keys
    as floats: [lookup_code], which compares integers, speaks for pandas
    when the column's integers and the dictionary's keys are all in this
    range. *)
Definition float_exact (z : Z) : Prop := - 2 ^ 53 ≤ z ≤ 2 ^ 53.

Definition exact_cells (s : Series) : Prop :=
  Forall (fun c => match c with
                   | CInt z => float_exact z
                   | _ => True
                   end) s.

Definition exact_keys (exchange_mapping : gmap Z string) : Prop :=
  map_Forall (fun z _ => float_exact z) exchange_mapping.

Definition store (l : loc) (o : obj) : Py unit :=
  modify (fun s => {| locals_conn := locals_conn s; heap := <[l := o]> (heap s); out := out s |}).

Section Mapper.
Local Open Scope py_scope.

(** Both arguments are references: the assignment on line 16 writes the
    new column into the caller's table, and line 18 returns that same
    reference. *)
Definition map_exchange_id_to_code (sqlPulledIds exchange_mapping : loc) : Py loc :=
  h <- gets heap;;
  match h !! sqlPulledIds, h !! exchange_mapping with
  | Some (ODataFrame df), Some (ODict d) =>
      match getitem df "ExchangeId" with
      | None => raise (Exn KeyError "ExchangeId")
      | Some col =>
          store sqlPulledIds (ODataFrame (setitem df "ExchangeCode" (Series_map col d)));;
          ret sqlPulledIds
      end
  | _, _ => raise (Exn ValueError "arguments are not a DataFrame and a dict")
  end.
End Mapper.

(** ** [src/figiAPI.py] *)

Record response := mkResponse {
  status_code : Z;
  text : string;
  json_body : exn + json     (* what response.json() gives *)
}.

(** What [get_figi]'s surroundings answer: the JSON encoder, the HTTP
    layer, the table constructor and the spreadsheet writer. *)
Record http_world := mkHttp {
  json_dumps : json -> string;
  requests_post : string -> list (string * string) -> string -> exn + response;
  pd_DataFrame : json -> exn + DataFrame;
  to_excel : string -> DataFrame -> option exn
}.

(** [requests.Response.raise_for_status]: raises [HTTPError] for a 4xx or
    5xx status and nothing otherwise.  The message is cut down to its
    kind; the library adds the status, the reason and the URL. *)
Definition raise_for_status (r : response) : Py unit :=
  if (400 <=? status_code r) && (status_code r <? 500)
  then raise (Exn HTTPError "Client Error")
  else if (500 <=? status_code r) && (status_code r <? 600)
  then raise (Exn HTTPError "Server Error")
  else ret tt.

Section Figi.
Variable hw : http_world.
Local Open Scope py_scope.

Definition url : string := "https://api.openfigi.com/v3/mapping".
Definition api_key : string := "879eac47-fad9-4138-8726-24c8f563701b".
Definition headers : list (string * string) :=
  [("Content-Type", "text/json"); ("X-OPENFIGI-APIKEY", api_key)].

(** The result is [None] for Python's [None]. *)
Definition get_figi (payload : json) : Py (option DataFrame) :=
  let data := json_dumps hw payload in
  print [[VStr data]];;
  emit (EvPost url headers data);;
  response <- answer (requests_post hw url headers data);;
  (* lines 31-36 *)
  passed <- try_except
              (raise_for_status response;; ret true)
              is_Exception
              (fun e =>
                 print [[VStr "Error:"]; [VExc e]];;
                 print [[VStr "Response text:"]; [VStr (text response)]];;
                 ret false);;
  if passed : bool then
    json_data <- answer (json_body response);;
    df <- answer (pd_DataFrame hw json_data);;
    ret (Some df)
  else ret None.

(** Lines 46-51. *)
Definition df : DataFrame :=
  {| nrows := 3;
     columns := [ ("idType", [CStr "ID_ISIN"; CStr "ID_ISIN"; CStr "ID_ISIN"]);
                  ("idValue", [CStr "US0378331005"; CStr "US5949181045"; CStr "DE0008469008"]);
                  ("exchCode", [CStr "US"; CStr "US"; CStr "GF"]);
                  ("currency", [CStr "USD"; CStr "USD"; CStr "EUR"]) ] |}.

Definition payload : json := to_dict_records df.

(** Lines 55-58.  Attribute lookup on [None] raises [AttributeError]
    before any method is called. *)
Definition figi_script : Py unit :=
  figi_df <- get_figi payload;;
  print [[match figi_df with Some t => VFrame t | None => VNone end]];;
  match figi_df with
  | Some t =>
      emit (EvToExcel "figi_output.xlsx" t);;
      match to_excel hw "figi_output.xlsx" t with
      | Some e => raise e
      | None => ret tt
      end
  | None => raise (Exn AttributeError "'NoneType' object has no attribute 'to_excel'")
  end.
End Figi.

Definition file_writes (tr : list event) : list string :=
  omap (fun ev => match ev with
                  | EvToExcel path _ => Some path
                  | _ => None
                  end) tr.

(** ** Sample surroundings *)

Definition sample_table : list db_row :=
  [ mkRow "INV1" 7 "CU$$$USD" "US3205175017" 2;
    mkRow "INV2" 9 "CU$$$EUR" "US78462F1030" 1;
    mkRow "INV3" 9 "CU$$$EUR" "US0378331005" 2 ].

Definition sample_env (name : string) : option string :=
  if String.eqb name "SERVER" then Some "db01"
  else if String.eqb name "DATABASE" then Some "ids"
  else if String.eqb name "USERNAME" then Some "reader"
  else if String.eqb name "PASSWORD" then Some "secret"
  else None.

(** The database answers. *)
Definition world_up : db_world :=
  {| getenv := sample_env;
     pyodbc_connect := fun _ => inr 1%nat;
     table := sample_table;
     query_fault := None |}.

(** The login is refused. *)
Definition world_down : db_world :=
  {| getenv := sample_env;
     pyodbc_connect := fun _ => inl (Exn PyodbcError "Login failed for user 'reader'");
     table := sample_table;
     query_fault := None |}.

(** The connection opens and the driver fails while the query runs. *)
Definition world_driver_fault : db_world :=
  {| getenv := sample_env;
     pyodbc_connect := fun _ => inr 1%nat;
     table := sample_table;
     query_fault := Some (Exn PyodbcError "Communication link failure") |}.

(** The connection opens and pandas reports the failed statement. *)
Definition world_pandas_fault : db_world :=
  {| getenv := sample_env;
     pyodbc_connect := fun _ => inr 1%nat;
     table := sample_table;
     query_fault := Some (Exn PandasDatabaseError "Execution failed on sql") |}.

Definition sample_heap : gmap loc obj :=
  <[1%positive := ODataFrame (frame_of_rows sample_table)]>
    (<[2%positive := ODict (<[7 := "NYSE"]> ∅)]> ∅).

Definition sample_state : state :=
  {| locals_conn := None; heap := sample_heap; out := [] |}.

Definition sample_response (status : Z) : response :=
  {| status_code := status; text := "[]"; json_body := inr (JArr []) |}.

Definition http_with (post : exn + response) : http_world :=
  {| json_dumps := fun _ => "[...]";
     requests_post := fun _ _ _ => post;
     pd_DataFrame := fun _ => inr {| nrows := 0; columns := [] |};
     to_excel := fun _ _ => None |}.

(** The service answers 404. *)
Definition http_not_found : http_world := http_with (inr (sample_response 404)).

(** The service cannot be reached. *)
Definition http_refused : http_world :=
  http_with (inl (Exn RequestsConnectionError "Connection refused")).

(** Twelve rows that all carry the same identifier. *)
Definition crowded_table : list db_row :=
  map (fun i => mkRow "INV" (Z.of_nat i) "CU$$$USD" "US0378331005" 2) (seq 0 12).

Definition world_crowded : db_world :=
  {| getenv := sample_env;
     pyodbc_connect := fun _ => inr 1%nat;
     table := crowded_table;
     query_fault := None |}.

(** ** Closed form of a call of [pull_data_from_database]

    The events up to the query, the events of the [finally] clause, the
    handler's message, and the three things a call leaves behind: its
    events, its outcome and the binding of [conn].  [pull_data_from_database_unfold]
    below proves the code equal to this form. *)

Definition opening_events (w : db_world) (ids : list string) (c : connection) : list event :=
  [ EvConnect (conn_str_of w);
    EvPrint [[VStr "Connection established successfully using SQL Auth!"]];
    EvPrint [[VStr "Executing SQL: "; VStr (sql_query ids)]];
    EvPrint [[VStr "With parameters: "; VStrList ids]];
    EvReadSql c (sql_query ids) ids ].

Definition closing_events (c : connection) : list event :=
  [ EvClose c; EvPrint [[VStr "Connection closed."]] ].

Definition error_event (e : exn) : event :=
  EvPrint [[VStr "Error connecting to database: "]; [VExc e]].

Definition pull_outcome (w : db_world) (ids : list string)
  : list event * result DataFrame * option connection :=
  match pyodbc_connect w (conn_str_of w) with
  | inl e =>
      if is_pyodbc_error e
      then ([EvConnect (conn_str_of w); error_event e], Raise (SystemExit 1), None)
      else ([EvConnect (conn_str_of w)], Raise e, None)
  | inr c =>
      match execute w (sql_query ids) ids with
      | inr t =>
          (opening_events w ids c
             ++ EvPrint [[VStr "Retrieved "; VInt (Z.of_nat (len t)); VStr " rows."]]
             :: closing_events c, Ok t, Some c)
      | inl e =>
          if is_pyodbc_error e
          then (opening_events w ids c ++ error_event e :: closing_events c,
                Raise (SystemExit 1), Some c)
          else (opening_events w ids c ++ closing_events c, Raise e, Some c)
      end
  end.

(** ** Further trace readers, closed forms and sample surroundings *)

(** The POST requests and the spreadsheets written, read off a trace. *)
Definition posts (tr : list event) : list (string * list (string * string) * string) :=
  omap (fun ev => match ev with
                  | EvPost u h d => Some (u, h, d)
                  | _ => None
                  end) tr.

Definition written_frames (tr : list event) : list (string * DataFrame) :=
  omap (fun ev => match ev with
                  | EvToExcel path t => Some (path, t)
                  | _ => None
                  end) tr.

(** What reaches the console: the arguments of each [print], in order. *)
Definition printed (tr : list event) : list (list fstring) :=
  omap (fun ev => match ev with
                  | EvPrint args => Some args
                  | _ => None
                  end) tr.

(** [400 <= status < 600], the statuses on which [raise_for_status] raises. *)
Definition is_error_status (status : Z) : bool :=
  (400 <=? status) && (status <? 600).

(** Closed form of a call of [get_figi]: its events and its outcome. *)
Definition get_figi_outcome (hw : http_world) (request : json)
  : list event * result (option DataFrame) :=
  let data := json_dumps hw request in
  let sent := [EvPrint [[VStr data]]; EvPost url headers data] in
  match requests_post hw url headers data with
  | inl e => (sent, Raise e)
  | inr resp =>
      if is_error_status (status_code resp)
      then (sent ++ [EvPrint [[VStr "Error:"];
                              [VExc (Exn HTTPError
                                       (if status_code resp <? 500
                                        then "Client Error" else "Server Error"))]];
                     EvPrint [[VStr "Response text:"]; [VStr (text resp)]]],
            Ok None)
      else match json_body resp with
           | inl e => (sent, Raise e)
           | inr j =>
               match pd_DataFrame hw j with
               | inl e => (sent, Raise e)
               | inr t => (sent, Ok (Some t))
               end
           end
  end.

Definition sample_answer : json :=
  JArr [JObj [("data", JArr [JObj [("figi", JStr "BBG000B9XRY4")]])]].

Definition sample_frame : DataFrame :=
  {| nrows := 1; columns := [("data", [CStr "[{'figi': 'BBG000B9XRY4'}]"])] |}.

Definition http_answering (status : Z) (body : exn + json) (disk : option exn) : http_world :=
  {| json_dumps := fun _ => "[...]";
     requests_post := fun _ _ _ =>
       inr {| status_code := status; text := "..."; json_body := body |};
     pd_DataFrame := fun _ => inr sample_frame;
     to_excel := fun _ _ => disk |}.

(** The service answers 200 with a JSON array. *)
Definition http_ok : http_world := http_answering 200 (inr sample_answer) None.

(** The service answers 200 with a body that is not JSON. *)
Definition http_garbled : http_world :=
  http_answering 200 (inl (Exn JSONDecodeError "Expecting value")) None.

(** The service answers 304 with an empty body. *)
Definition http_not_modified : http_world :=
  http_answering 304 (inl (Exn JSONDecodeError "Expecting value")) None.

(** The service answers, the spreadsheet cannot be written. *)
Definition http_disk_full : http_world :=
  http_answering 200 (inr sample_answer) (Some (Exn OSError "No space left on device")).

(** [pyodbc.connect] fails with something that is not a [pyodbc.Error]. *)
Definition world_interrupted : db_world :=
  {| getenv := sample_env;
     pyodbc_connect := fun _ => inl (Exn OSError "Interrupted system call");
     table := sample_table;
     query_fault := None |}.

(** As [world_up], with [TABLE_NAME] set as well. *)
Definition world_other_table : db_world :=
  {| getenv := fun name => if String.eqb name "TABLE_NAME" then Some "Elsewhere"
                           else sample_env name;
     pyodbc_connect := fun _ => inr 1%nat;
     table := sample_table;
     query_fault := None |}.

(** As [world_up], with other credentials. *)
Definition world_other_password : db_world :=
  {| getenv := fun name => if String.eqb name "USERNAME" then Some "auditor"
                           else if String.eqb name "PASSWORD" then Some "hunter2"
                           else sample_env name;
     pyodbc_connect := fun _ => inr 1%nat;
     table := sample_table;
     query_fault := None |}.

(** A heap whose table has no [ExchangeId] column. *)
Definition heap_without_exchange : gmap loc obj :=
  <[1%positive := ODataFrame {| nrows := 1; columns := [("Identifier", [CStr "US0378331005"])] |}]>
    (<[2%positive := ODict (<[7 := "NYSE"]> ∅)]> ∅).

Definition state_without_exchange : state :=
  {| locals_conn := None; heap := heap_without_exchange; out := [] |}.

(** A heap whose table already has an [ExchangeCode] column, ahead of
    [ExchangeId]. *)
Definition heap_already_coded : gmap loc obj :=
  <[1%positive := ODataFrame {| nrows := 2;
                                columns := [("ExchangeCode", [CStr "old"; CStr "old"]);
                                            ("ExchangeId", [CInt 7; CInt 8])] |}]>
    (<[2%positive := ODict (<[7 := "NYSE"]> ∅)]> ∅).

Definition state_already_coded : state :=
  {| locals_conn := None; heap := heap_already_coded; out := [] |}.

(** A heap holding the table that [world_up] returns for [id_list]. *)
Definition heap_fetched : gmap loc obj :=
  <[1%positive := ODataFrame
                    (frame_of_rows
                       (take 10 (filter (λ r, matches id_list r = true) sample_table)))]>
    (<[2%positive := ODict (<[7 := "NYSE"]> ∅)]> ∅).

Definition state_fetched : state :=
  {| locals_conn := None; heap := heap_fetched; out := [] |}.

(** A heap with a table and two mapping dictionaries. *)
Definition heap_two_mappings : gmap loc obj :=
  <[1%positive := ODataFrame (frame_of_rows sample_table)]>
    (<[2%positive := ODict (<[7 := "NYSE"]> ∅)]>
       (<[3%positive := ODict (<[9 := "XETR"]> ∅)]> ∅)).

Definition state_two_mappings : state :=
  {| locals_conn := None; heap := heap_two_mappings; out := [] |}.

(** Unfolding the monad's operations, for symbolic runs. *)
Ltac py_unfold :=
  unfold bind, ret, raise, gets, modify, answer, emit, print, bind_conn, store,
    try_except, try_finally.

(** Closing a decidable statement about given data by evaluating its
    decision procedure, and the range conditions on given data. *)
Ltac by_decide := apply (bool_decide_unpack _); vm_compute; exact I.

Ltac in_range :=
  unfold exact_cells, exact_keys, float_exact;
  repeat match goal with
         | |- map_Forall _ (<[_:=_]> _) => apply map_Forall_insert_2
         | |- map_Forall _ ∅ => apply map_Forall_empty
         | |- Forall _ _ => constructor; lazy beta iota
         | |- True => exact I
         end;
  try lia.

(** * Properties *)

(** ** Strings and the statement parser *)

Lemma count_char_app c (a b : string) :
  count_char c (a +:+ b) = (count_char c a + count_char c b)%nat.
Proof.
  induction a as [|x a IH]; simpl; [done|]. rewrite IH. lia.
Qed.

Lemma join_markers_step k :
  join ", " (replicate (S (S k)) "?") = "?, " +:+ join ", " (replicate (S k) "?").
Proof. reflexivity. Qed.

Lemma count_char_markers k :
  count_char "?" (join ", " (replicate k "?")) = k.
Proof.
  destruct k as [|k]; [done|].
  induction k as [|k IH]; [done|].
  rewrite join_markers_step, count_char_app, IH. reflexivity.
Qed.

Lemma strip_prefix_app p s : strip_prefix p (p +:+ s) = Some s.
Proof.
  induction p as [|a p IH]; simpl; [done|].
  rewrite Ascii.eqb_refl. exact IH.
Qed.

(** The parser counts the markers that [join] wrote. *)
Lemma parse_markers_join k :
  parse_markers (join ", " (replicate (S k) "?") +:+ ")") = Some (S k).
Proof.
  assert (H : ∃ t, join ", " (replicate (S k) "?") +:+ ")" = String "?" t
                   ∧ parse_more_markers t = Some k).
  { induction k as [|k (t & Ht & Hp)].
    - exists ")". split; reflexivity.
    - exists (", " +:+ String "?" t). split.
      + rewrite join_markers_step.
        change ("?, " +:+ (join ", " (replicate (S k) "?") +:+ ")")
                = String "?" (", " +:+ String "?" t)).
        rewrite Ht. reflexivity.
      + simpl. rewrite Hp. reflexivity. }
  destruct H as (t & Ht & Hp). rewrite Ht. simpl. rewrite Hp. reflexivity.
Qed.

Lemma sql_query_shape ids :
  sql_query ids =
  "SELECT top " +:+ String "1" (String "0" (select_columns +:+ placeholders ids +:+ ")")).
Proof. reflexivity. Qed.

Lemma read_digits_stop s acc :
  read_digits (select_columns +:+ s) acc = (acc, select_columns +:+ s).
Proof. reflexivity. Qed.

(** The engine reads the generated statement as: at most ten rows, one
    marker per identifier. *)
Lemma parse_select_sql_query ids :
  ids ≠ [] → parse_select (sql_query ids) = Some (10%nat, length ids).
Proof.
  intros Hne. destruct ids as [|i ids]; [done|].
  unfold parse_select. rewrite sql_query_shape, strip_prefix_app.
  cbn [mbind option_bind].
  change (is_digit "1") with true. cbn iota.
  change (read_digits (String "1" (String "0" ?s)) 0)
    with (read_digits s 10).
  rewrite read_digits_stop, strip_prefix_app.
  cbn [mbind option_bind].
  unfold placeholders. cbn [length].
  rewrite parse_markers_join. reflexivity.
Qed.

Lemma parse_select_empty : parse_select (sql_query []) = None.
Proof. reflexivity. Qed.

(** ** The fetcher *)

Lemma pull_data_from_database_unfold w ids s :
  pull_data_from_database w ids s =
  ({| locals_conn := (pull_outcome w ids).2;
      heap := heap s;
      out := out s ++ (pull_outcome w ids).1.1 |},
   (pull_outcome w ids).1.2).
Proof.
  unfold pull_outcome, pull_data_from_database, pull_body, pull_handler,
    pull_finally.
  py_unfold.
  cbn [locals_conn heap out].
  destruct (pyodbc_connect w (conn_str_of w)) as [e|c]; cbn.
  - destruct (is_pyodbc_error e); cbn; rewrite <- ?app_assoc; reflexivity.
  - destruct (execute w (sql_query ids) ids) as [e|t]; cbn.
    + destruct (is_pyodbc_error e); cbn; rewrite <- ?app_assoc; reflexivity.
    + rewrite <- ?app_assoc; reflexivity.
Qed.

Lemma run_pull w ids :
  run (pull_data_from_database w ids) = (pull_outcome w ids).1.
Proof.
  unfold run. rewrite pull_data_from_database_unfold. cbn.
  by destruct (pull_outcome w ids) as [[tr r] c].
Qed.

Lemma issued_queries_opening w ids c rest :
  issued_queries (opening_events w ids c ++ rest)
  = (sql_query ids, ids) :: issued_queries rest.
Proof. reflexivity. Qed.

Lemma run_main w :
  run (main w) =
  match (pull_outcome w id_list).1.2 with
  | Ok t =>
      (EvPrint [[VStr "Starting data pull..."]] :: (pull_outcome w id_list).1.1
         ++ [EvPrint [[VStr "Data pull complete."]]; EvPrint [[VFrame (head t)]]],
       Ok tt)
  | Raise e =>
      (EvPrint [[VStr "Starting data pull..."]] :: (pull_outcome w id_list).1.1, Raise e)
  end.
Proof.
  unfold run, main, bind, print, emit, modify.
  rewrite pull_data_from_database_unfold.
  destruct (pull_outcome w id_list) as [[tr r] c]. cbn.
  destruct r; cbn; rewrite <- ?app_assoc; reflexivity.
Qed.

Lemma execute_empty_fails w :
  ∃ e, execute w (sql_query []) [] = inl e.
Proof.
  unfold execute. destruct (query_fault w) as [e|]; [by exists e|].
  rewrite parse_select_empty. eauto.
Qed.

Lemma frame_of_rows_well_formed rows : well_formed (frame_of_rows rows).
Proof.
  unfold well_formed, frame_of_rows. cbn.
  repeat constructor; cbn; by rewrite length_map.
Qed.

(** C1.  For a non-empty identifier list [ids] of length [k] and an open
    connection, the one query handed to the execution layer is
    [SELECT top 10 ... FROM InvestmentIdentifier WHERE IdentifierType = 2
    and Identifier IN (...)] with [k] markers joined by [", "]; its text
    holds exactly [k] question marks; [ids] itself is the parameter list;
    and any other list of the same length gives the same text, so the
    identifiers never enter it. *)
Theorem pull_query_parameterised (w : db_world) (ids : list string) (c : connection) :
  ids ≠ [] →
  pyodbc_connect w (conn_str_of w) = inr c →
  let q := "SELECT top 10 InvestmentId, ExchangeId, RIGHT(CurrencyId, 3), Identifier FROM InvestmentIdentifier WHERE IdentifierType = 2 and Identifier IN ("
           +:+ join ", " (replicate (length ids) "?") +:+ ")" in
  issued_queries (run (pull_data_from_database w ids)).1 = [(q, ids)]
  ∧ count_char "?" q = length ids
  ∧ (∀ ids', length ids' = length ids →
       issued_queries (run (pull_data_from_database w ids')).1 = [(q, ids')]).
Proof.
  intros Hne Hc q.
  assert (Hq : ∀ ids', length ids' = length ids →
            issued_queries (run (pull_data_from_database w ids')).1 = [(q, ids')]).
  { intros ids' Hlen. rewrite run_pull. unfold pull_outcome. rewrite Hc.
    assert (sql_query ids' = q) as Hsql.
    { unfold sql_query, placeholders, q. by rewrite Hlen. }
    destruct (execute w (sql_query ids') ids') as [e|t];
      [destruct (is_pyodbc_error e)|]; cbn [fst snd];
      rewrite issued_queries_opening, Hsql; reflexivity. }
  split; [by apply Hq|]. split; [|exact Hq].
  unfold q. rewrite !count_char_app, count_char_markers.
  match goal with
  | |- (count_char ?c ?a + (_ + count_char ?c ?b))%nat = _ =>
      change (count_char c a) with 0%nat; change (count_char c b) with 0%nat
  end.
  lia.
Qed.

(** C1 on the identifiers of [main.py]. *)
Lemma pull_query_parameterised_witness :
  issued_queries (run (pull_data_from_database world_up id_list)).1
  = [("SELECT top 10 InvestmentId, ExchangeId, RIGHT(CurrencyId, 3), Identifier FROM InvestmentIdentifier WHERE IdentifierType = 2 and Identifier IN (?, ?, ?)",
      id_list)].
Proof.
  exact (proj1 (pull_query_parameterised world_up id_list 1%nat
                  ltac:(discriminate) eq_refl)).
Defined.

(** C3, as stated, fails: with an empty list and a database that answers,
    the statement with the empty [IN ()] list is handed to the execution
    layer. *)
Lemma empty_list_reaches_database :
  issued_queries (run (pull_data_from_database world_up [])).1
  = [("SELECT top 10 InvestmentId, ExchangeId, RIGHT(CurrencyId, 3), Identifier FROM InvestmentIdentifier WHERE IdentifierType = 2 and Identifier IN ()",
      [])].
Proof. vm_compute. reflexivity. Qed.

(** C3, amended.  The function has no check of its own: with an open
    connection and an empty list it builds the statement ending in
    [IN ()], hands it over with no parameters, and the call ends with the
    failure the execution layer raises for it (turned into exit status 1
    when that failure is a [pyodbc.Error]). *)
Theorem empty_list_not_validated (w : db_world) (c : connection) :
  pyodbc_connect w (conn_str_of w) = inr c →
  issued_queries (run (pull_data_from_database w [])).1
  = [("SELECT top 10 InvestmentId, ExchangeId, RIGHT(CurrencyId, 3), Identifier FROM InvestmentIdentifier WHERE IdentifierType = 2 and Identifier IN ()",
      [])]
  ∧ ∃ e, execute w (sql_query []) [] = inl e
         ∧ (run (pull_data_from_database w [])).2
           = if is_pyodbc_error e then Raise (SystemExit 1) else Raise e.
Proof.
  intros Hc. rewrite run_pull. unfold pull_outcome. rewrite Hc.
  destruct (execute_empty_fails w) as [e He]. rewrite He.
  split.
  - by destruct (is_pyodbc_error e).
  - exists e. split; [done|]. by destruct (is_pyodbc_error e).
Qed.

Lemma empty_list_not_validated_witness :
  issued_queries (run (pull_data_from_database world_up [])).1
  = [("SELECT top 10 InvestmentId, ExchangeId, RIGHT(CurrencyId, 3), Identifier FROM InvestmentIdentifier WHERE IdentifierType = 2 and Identifier IN ()",
      [])]
  ∧ ∃ e, execute world_up (sql_query []) [] = inl e
         ∧ (run (pull_data_from_database world_up [])).2
           = if is_pyodbc_error e then Raise (SystemExit 1) else Raise e.
Proof. exact (empty_list_not_validated world_up 1%nat eq_refl). Defined.

(** C4.  Whatever the surroundings answer, a call that opened connection
    [c] closes exactly [c], once, as its last action before it ends (by
    return, by a propagating failure or by [sys.exit]); a call whose
    connection did not open closes nothing. *)
Theorem connection_closed_on_every_exit (w : db_world) (ids : list string) :
  let tr := (run (pull_data_from_database w ids)).1 in
  match pyodbc_connect w (conn_str_of w) with
  | inr c =>
      closed_connections tr = [c]
      ∧ ∃ tr', tr = tr' ++ closing_events c ∧ closed_connections tr' = []
  | inl _ => closed_connections tr = []
  end.
Proof.
  intros tr. subst tr. rewrite run_pull. unfold pull_outcome.
  destruct (pyodbc_connect w (conn_str_of w)) as [e|c].
  - by destruct (is_pyodbc_error e).
  - destruct (execute w (sql_query ids) ids) as [e|t];
      [destruct (is_pyodbc_error e)|]; cbn [fst snd];
      (split; [reflexivity|]).
    + exists (opening_events w ids c ++ [error_event e]).
      by rewrite <- app_assoc.
    + by exists (opening_events w ids c).
    + eexists (opening_events w ids c ++ [_]).
      by rewrite <- app_assoc.
Qed.

(** C5.  When [pyodbc.connect] fails with a [pyodbc.Error], the call
    attempts the connection once, prints the error and raises
    [SystemExit(1)], so the process ends with status 1; when the fetch of
    [main.py] returns a table, the script runs to its end and the status
    is 0. *)
Theorem exit_status_of_fetch (w : db_world) :
  (∀ ids e,
      pyodbc_connect w (conn_str_of w) = inl e →
      is_pyodbc_error e = true →
      run (pull_data_from_database w ids)
      = ([EvConnect (conn_str_of w);
          EvPrint [[VStr "Error connecting to database: "]; [VExc e]]],
         Raise (SystemExit 1))
      ∧ connect_attempts (run (pull_data_from_database w ids)).1 = [conn_str_of w]
      ∧ exit_status (run (pull_data_from_database w ids)).2 = 1
      ∧ exit_status (run (main w)).2 = 1)
  ∧ (∀ t,
      (run (pull_data_from_database w id_list)).2 = Ok t →
      (run (main w)).2 = Ok tt ∧ exit_status (run (main w)).2 = 0).
Proof.
  split.
  - intros ids e Hc He. rewrite run_main, !run_pull. unfold pull_outcome.
    rewrite Hc, He. done.
  - intros t. rewrite run_main, run_pull. intros ->. done.
Qed.

Lemma exit_status_of_fetch_witness :
  exit_status (run (main world_down)).2 = 1
  ∧ exit_status (run (main world_up)).2 = 0.
Proof.
  split.
  - exact (proj2 (proj2 (proj2 (proj1 (exit_status_of_fetch world_down) id_list
             (Exn PyodbcError "Login failed for user 'reader'") eq_refl eq_refl)))).
  - refine (proj2 (proj2 (exit_status_of_fetch world_up) _ _)).
    vm_compute. reflexivity.
Defined.

(** C6, as stated, fails: a [pyodbc.Error] raised while the query runs,
    on an open connection, does not leave the call; the handler turns it
    into [SystemExit(1)]. *)
Lemma driver_fault_is_converted :
  execute world_driver_fault (sql_query ["US3205175017"]) ["US3205175017"]
  = inl (Exn PyodbcError "Communication link failure")
  ∧ (run (pull_data_from_database world_driver_fault ["US3205175017"])).2
    = Raise (SystemExit 1).
Proof. split; vm_compute; reflexivity. Qed.

(** C6, amended.  A failure of the query on an open connection leaves the
    call unchanged, after the connection is closed, unless it is a
    [pyodbc.Error]; that one is caught by the function's only handler,
    printed as a connection error and replaced by [SystemExit(1)]. *)
Theorem query_failure_outcome (w : db_world) (ids : list string)
    (c : connection) (e : exn) :
  pyodbc_connect w (conn_str_of w) = inr c →
  execute w (sql_query ids) ids = inl e →
  run (pull_data_from_database w ids)
  = if is_pyodbc_error e
    then (opening_events w ids c ++ error_event e :: closing_events c,
          Raise (SystemExit 1))
    else (opening_events w ids c ++ closing_events c, Raise e).
Proof.
  intros Hc He. rewrite run_pull. unfold pull_outcome. rewrite Hc, He.
  by destruct (is_pyodbc_error e).
Qed.

Lemma query_failure_outcome_witness :
  run (pull_data_from_database world_pandas_fault id_list)
  = (opening_events world_pandas_fault id_list 1%nat ++ closing_events 1%nat,
     Raise (Exn PandasDatabaseError "Execution failed on sql")).
Proof.
  exact (query_failure_outcome world_pandas_fault id_list 1%nat
           (Exn PandasDatabaseError "Execution failed on sql") eq_refl eq_refl).
Defined.

(** C9.  For a non-empty identifier list, every table the call returns
    has at most ten rows (and columns of that length); and when the
    connection opens and the query does not fail, the call does return:
    the first ten matching rows of the table, however many match. *)
Theorem result_has_at_most_ten_rows (w : db_world) (ids : list string) :
  ids ≠ [] →
  (∀ t, (run (pull_data_from_database w ids)).2 = Ok t →
        (nrows t ≤ 10)%nat ∧ well_formed t)
  ∧ (∀ c, pyodbc_connect w (conn_str_of w) = inr c →
          query_fault w = None →
          (run (pull_data_from_database w ids)).2
          = Ok (frame_of_rows
                  (take 10 (filter (λ r, matches ids r = true) (table w))))).
Proof.
  intros Hne.
  assert (Hex : ∀ t, execute w (sql_query ids) ids = inr t →
            t = frame_of_rows (take 10 (filter (λ r, matches ids r = true) (table w)))).
  { unfold execute. intros t.
    destruct (query_fault w); [done|].
    rewrite parse_select_sql_query by done.
    rewrite Nat.eqb_refl. by intros [= <-]. }
  split.
  - intros t. rewrite run_pull. unfold pull_outcome.
    destruct (pyodbc_connect w (conn_str_of w)) as [e|c].
    { by destruct (is_pyodbc_error e). }
    destruct (execute w (sql_query ids) ids) as [e|t'] eqn:He.
    { by destruct (is_pyodbc_error e). }
    cbn. intros [= <-]. rewrite (Hex t' eq_refl). split.
    + cbn. rewrite length_take. lia.
    + apply frame_of_rows_well_formed.
  - intros c Hc Hf. rewrite run_pull. unfold pull_outcome, execute.
    rewrite Hc, Hf, parse_select_sql_query by done.
    by rewrite Nat.eqb_refl.
Qed.

(** C9 where twelve rows match: ten come back. *)
Lemma result_has_at_most_ten_rows_witness :
  (run (pull_data_from_database world_crowded ["US0378331005"])).2
  = Ok (frame_of_rows
          (take 10 (filter (λ r, matches ["US0378331005"] r = true)
                           (table world_crowded)))).
Proof.
  exact (proj2 (result_has_at_most_ten_rows world_crowded ["US0378331005"]
                  ltac:(discriminate)) 1%nat eq_refl eq_refl).
Defined.

(** ** The mapper *)

Lemma String_eqb_neq (a b : string) : a ≠ b → String.eqb a b = false.
Proof. intros H. by apply String.eqb_neq. Qed.

Lemma lookup_assign_column_eq name s cols :
  lookup_column name (assign_column name s cols) = Some s.
Proof.
  induction cols as [|[c old] rest IH]; cbn.
  - by rewrite String.eqb_refl.
  - destruct (String.eqb c name) eqn:E; cbn; rewrite E; [done|exact IH].
Qed.

Lemma lookup_assign_column_ne name other s cols :
  other ≠ name →
  lookup_column other (assign_column name s cols) = lookup_column other cols.
Proof.
  intros Hne. induction cols as [|[c old] rest IH]; cbn.
  - rewrite String_eqb_neq; [done|]. congruence.
  - destruct (String.eqb c name) eqn:E; cbn.
    + apply String.eqb_eq in E as ->.
      rewrite String_eqb_neq; [done|]. congruence.
    + by rewrite IH.
Qed.

(** Assignment leaves every other column where and as it was. *)
Lemma assign_column_others name s cols :
  filter (λ cs, cs.1 ≠ name) (assign_column name s cols)
  = filter (λ cs, cs.1 ≠ name) cols.
Proof.
  induction cols as [|[c old] rest IH]; cbn [assign_column].
  - rewrite filter_cons_False; [done|]. cbn [fst]. by intros H; apply H.
  - destruct (String.eqb c name) eqn:E.
    + apply String.eqb_eq in E as ->.
      rewrite !filter_cons_False; [done| |]; cbn [fst]; by intros H; apply H.
    + apply String.eqb_neq in E.
      rewrite !filter_cons_True by done. by rewrite IH.
Qed.

Lemma assign_column_idemp name s cols :
  assign_column name s (assign_column name s cols) = assign_column name s cols.
Proof.
  induction cols as [|[c old] rest IH]; cbn.
  - by rewrite String.eqb_refl.
  - destruct (String.eqb c name) eqn:E; cbn; rewrite E; [done|]. by rewrite IH.
Qed.

Lemma assign_column_new name s cols :
  lookup_column name cols = None →
  assign_column name s cols = cols ++ [(name, s)].
Proof.
  induction cols as [|[c old] rest IH]; cbn [lookup_column assign_column]; [done|].
  destruct (String.eqb c name); [done|].
  intros H. by rewrite IH.
Qed.

Lemma assign_column_names name s cols :
  is_Some (lookup_column name cols) →
  map fst (assign_column name s cols) = map fst cols.
Proof.
  induction cols as [|[c old] rest IH]; cbn [lookup_column assign_column].
  - by intros [? ?].
  - destruct (String.eqb c name); [done|].
    intros H. cbn [map fst]. by rewrite IH.
Qed.

Lemma lookup_column_elem name cols s :
  lookup_column name cols = Some s → (name, s) ∈ cols.
Proof.
  induction cols as [|[c old] rest IH]; cbn [lookup_column]; [done|].
  destruct (String.eqb c name) eqn:E.
  - apply String.eqb_eq in E as ->. intros [= ->]. apply list_elem_of_here.
  - intros H. apply list_elem_of_further. by apply IH.
Qed.

Lemma assign_column_Forall (P : string * Series → Prop) name s cols :
  Forall P cols → P (name, s) → Forall P (assign_column name s cols).
Proof.
  intros Hall Hs.
  induction Hall as [|[c old] rest Hc Hrest IH]; cbn [assign_column].
  - by constructor.
  - destruct (String.eqb c name) eqn:E.
    + apply String.eqb_eq in E as ->. by constructor.
    + by constructor.
Qed.

Lemma lookup_column_None name cols :
  lookup_column name cols = None → name ∉ map fst cols.
Proof.
  induction cols as [|[c old] rest IH]; cbn [lookup_column map fst].
  - intros _. apply not_elem_of_nil.
  - destruct (String.eqb c name) eqn:E; [done|].
    apply String.eqb_neq in E. intros H. apply not_elem_of_cons. split.
    + congruence.
    + by apply IH.
Qed.

(** Assignment keeps the column names distinct. *)
Lemma setitem_unique_columns t name s :
  unique_columns t → unique_columns (setitem t name s).
Proof.
  unfold unique_columns, setitem. cbn [columns]. intros Hnd.
  destruct (lookup_column name (columns t)) as [old|] eqn:E.
  - by rewrite assign_column_names.
  - rewrite (assign_column_new _ _ _ E), map_app. cbn [map fst].
    apply NoDup_app. split; [done|]. split.
    + intros x Hx Hin. apply list_elem_of_singleton in Hin as ->.
      by apply (lookup_column_None _ _ E).
    + apply NoDup_singleton.
Qed.

Lemma Series_map_lookup (ids : Series) d i c :
  ids !! i = Some c → Series_map ids d !! i = Some (lookup_code d c).
Proof.
  revert i. induction ids as [|x xs IH]; intros [|i] H; try done.
  - injection H as ->. reflexivity.
  - apply IH. exact H.
Qed.

Lemma map_exchange_id_to_code_unfold s p m t d ids :
  heap s !! p = Some (ODataFrame t) →
  heap s !! m = Some (ODict d) →
  getitem t "ExchangeId" = Some ids →
  map_exchange_id_to_code p m s
  = ({| locals_conn := locals_conn s;
        heap := <[p := ODataFrame (setitem t "ExchangeCode" (Series_map ids d))]> (heap s);
        out := out s |},
     Ok p).
Proof.
  intros Hp Hm Hids.
  unfold map_exchange_id_to_code. py_unfold. rewrite Hp, Hm, Hids.
  reflexivity.
Qed.




(** C8.  For a table with distinct column names, one of them
    [ExchangeId], and a mapping dictionary (identifiers and keys in the
    range a float64 holds exactly, so that pandas compares them as
    integers are compared), the call returns the table with its row
    count unchanged, its column names still distinct,
    every column other than [ExchangeCode] where and as it was (so the
    rows are the input rows, in order, none dropped or repeated), and an
    [ExchangeCode] column as long as [ExchangeId] whose entry in each row
    is the mapped value when the row's [ExchangeId] is a key of the
    mapping and the missing marker otherwise; calling again on the result
    changes nothing. *)
Theorem map_adds_exchange_code (s : state) (p m : loc)
    (t : DataFrame) (d : gmap Z string) (ids : Series) :
  heap s !! p = Some (ODataFrame t) →
  heap s !! m = Some (ODict d) →
  getitem t "ExchangeId" = Some ids →
  unique_columns t →
  exact_cells ids →
  exact_keys d →
  ∃ s' t' codes,
    map_exchange_id_to_code p m s = (s', Ok p)
    ∧ heap s' !! p = Some (ODataFrame t')
    ∧ nrows t' = nrows t
    ∧ unique_columns t'
    ∧ filter (λ cs, cs.1 ≠ "ExchangeCode") (columns t')
      = filter (λ cs, cs.1 ≠ "ExchangeCode") (columns t)
    ∧ getitem t' "ExchangeId" = Some ids
    ∧ getitem t' "ExchangeCode" = Some codes
    ∧ length codes = length ids
    ∧ (∀ i c, ids !! i = Some c →
         codes !! i = Some match c with
                           | CInt z => match d !! z with
                                       | Some code => CStr code
                                       | None => CNull
                                       end
                           | _ => CNull
                           end)
    ∧ map_exchange_id_to_code p m s' = (s', Ok p).
Proof.
  intros Hp Hm Hids Hnd _ _.
  assert (p ≠ m) as Hpm by congruence.
  set (t' := setitem t "ExchangeCode" (Series_map ids d)).
  assert (getitem t' "ExchangeId" = Some ids) as Hids'.
  { unfold t', getitem, setitem. cbn [columns].
    rewrite lookup_assign_column_ne; done. }
  eexists _, t', (Series_map ids d).
  split; [by apply map_exchange_id_to_code_unfold|].
  cbn [heap]. split; [by rewrite lookup_insert_eq|].
  split; [reflexivity|].
  split; [by apply setitem_unique_columns|].
  repeat split.
  - apply assign_column_others.
  - exact Hids'.
  - apply lookup_assign_column_eq.
  - unfold Series_map. by rewrite length_map.
  - intros i c Hi. by rewrite (Series_map_lookup _ _ _ _ Hi).
  - assert (setitem t' "ExchangeCode" (Series_map ids d) = t') as Hidem.
    { unfold t', setitem. cbn [columns nrows]. by rewrite assign_column_idemp. }
    rewrite (map_exchange_id_to_code_unfold _ p m t' d ids);
      cbn [heap locals_conn out].
    + by rewrite insert_insert_eq, Hidem.
    + by rewrite lookup_insert_eq.
    + by rewrite lookup_insert_ne.
    + exact Hids'.
Qed.

(** C8 on the sample heap: exchange 7 is mapped, exchange 9 is not. *)
Lemma map_adds_exchange_code_witness :
  ∃ s' t' codes,
    map_exchange_id_to_code 1%positive 2%positive sample_state = (s', Ok 1%positive)
    ∧ heap s' !! 1%positive = Some (ODataFrame t')
    ∧ nrows t' = nrows (frame_of_rows sample_table)
    ∧ unique_columns t'
    ∧ filter (λ cs, cs.1 ≠ "ExchangeCode") (columns t')
      = filter (λ cs, cs.1 ≠ "ExchangeCode") (columns (frame_of_rows sample_table))
    ∧ getitem t' "ExchangeId" = Some [CInt 7; CInt 9; CInt 9]
    ∧ getitem t' "ExchangeCode" = Some codes
    ∧ length codes = length [CInt 7; CInt 9; CInt 9]
    ∧ (∀ i c, [CInt 7; CInt 9; CInt 9] !! i = Some c →
         codes !! i = Some match c with
                           | CInt z => match (<[7 := "NYSE"]> ∅ : gmap Z string) !! z with
                                       | Some code => CStr code
                                       | None => CNull
                                       end
                           | _ => CNull
                           end)
    ∧ map_exchange_id_to_code 1%positive 2%positive s' = (s', Ok 1%positive).
Proof.
  exact (map_adds_exchange_code sample_state 1%positive 2%positive
           (frame_of_rows sample_table) (<[7 := "NYSE"]> ∅) [CInt 7; CInt 9; CInt 9]
           eq_refl eq_refl eq_refl
           ltac:(by_decide) ltac:(in_range) ltac:(in_range)).
Defined.

(** ** The mapping client *)

Lemma raise_for_status_error (r : response) s :
  400 ≤ status_code r < 600 →
  ∃ msg, raise_for_status r s = (s, Raise (Exn HTTPError msg)).
Proof.
  intros H. unfold raise_for_status.
  destruct (Z.ltb_spec (status_code r) 500).
  - replace (400 <=? status_code r) with true by (symmetry; apply Z.leb_le; lia).
    cbn. eauto.
  - replace (status_code r <? 500) with false by (symmetry; apply Z.ltb_ge; lia).
    rewrite andb_false_r.
    replace (500 <=? status_code r) with true by (symmetry; apply Z.leb_le; lia).
    replace (status_code r <? 600) with true by (symmetry; apply Z.ltb_lt; lia).
    cbn. eauto.
Qed.

(** C2, as stated, fails: when the POST itself fails (connection
    refused), the exception leaves [get_figi]; nothing is caught and
    [None] is not returned. *)
Lemma transport_failure_propagates :
  run (get_figi http_refused payload)
  = ([EvPrint [[VStr "[...]"]]; EvPost url headers "[...]"],
     Raise (Exn RequestsConnectionError "Connection refused")).
Proof. vm_compute. reflexivity. Qed.

(** C2, amended.  When the POST returns a response with an error status
    (4xx or 5xx, the statuses for which [raise_for_status] raises),
    [get_figi] catches the [HTTPError], prints it and the raw response
    text, and returns [None]; when the POST itself raises, that exception
    leaves [get_figi] as it is. *)
Theorem get_figi_failure_handling (hw : http_world) (request : json) :
  let data := json_dumps hw request in
  (∀ resp,
      requests_post hw url headers data = inr resp →
      400 ≤ status_code resp < 600 →
      ∃ msg,
        run (get_figi hw request)
        = ([EvPrint [[VStr data]];
            EvPost url headers data;
            EvPrint [[VStr "Error:"]; [VExc (Exn HTTPError msg)]];
            EvPrint [[VStr "Response text:"]; [VStr (text resp)]]],
           Ok None))
  ∧ (∀ e,
      requests_post hw url headers data = inl e →
      run (get_figi hw request)
      = ([EvPrint [[VStr data]]; EvPost url headers data], Raise e)).
Proof.
  intros data. split.
  - intros resp Hpost Hst.
    destruct (raise_for_status_error resp
                {| locals_conn := None; heap := ∅;
                   out := [EvPrint [[VStr data]]; EvPost url headers data] |} Hst)
      as [msg Hmsg].
    exists msg.
    unfold run, get_figi. py_unfold.
    fold data. rewrite Hpost. cbn. rewrite Hmsg. reflexivity.
  - intros e Hpost.
    unfold run, get_figi. py_unfold.
    fold data. rewrite Hpost. reflexivity.
Qed.

(** C2, amended, on a 404 answer and on a refused connection. *)
Lemma get_figi_failure_handling_witness :
  (∃ msg,
      run (get_figi http_not_found payload)
      = ([EvPrint [[VStr "[...]"]];
          EvPost url headers "[...]";
          EvPrint [[VStr "Error:"]; [VExc (Exn HTTPError msg)]];
          EvPrint [[VStr "Response text:"]; [VStr "[]"]]],
         Ok None))
  ∧ run (get_figi http_refused payload)
    = ([EvPrint [[VStr "[...]"]]; EvPost url headers "[...]"],
       Raise (Exn RequestsConnectionError "Connection refused")).
Proof.
  split.
  - exact (proj1 (get_figi_failure_handling http_not_found payload)
             (sample_response 404) eq_refl ltac:(cbn; lia)).
  - exact (proj2 (get_figi_failure_handling http_refused payload)
             (Exn RequestsConnectionError "Connection refused") eq_refl).
Defined.

(** C10.  On a 404 answer [get_figi] returns [None]; the script does not
    test for it: it prints [None] and goes on to [figi_df.to_excel],
    where the attribute lookup on [None] raises [AttributeError].  No
    file is written, and the script ends in an uncaught exception. *)
Theorem script_dereferences_sentinel :
  (run (get_figi http_not_found payload)).2 = Ok None
  ∧ file_writes (run (figi_script http_not_found)).1 = []
  ∧ run (figi_script http_not_found)
    = ([EvPrint [[VStr "[...]"]];
        EvPost url headers "[...]";
        EvPrint [[VStr "Error:"]; [VExc (Exn HTTPError "Client Error")]];
        EvPrint [[VStr "Response text:"]; [VStr "[]"]];
        EvPrint [[VNone]]],
       Raise (Exn AttributeError "'NoneType' object has no attribute 'to_excel'")).
Proof. repeat split; vm_compute; reflexivity. Qed.

(** * Further properties *)

(** ** More on the mapping client *)

Lemma is_error_status_spec status :
  is_error_status status = true ↔ 400 ≤ status < 600.
Proof. unfold is_error_status. rewrite andb_true_iff, Z.leb_le, Z.ltb_lt. done. Qed.

Lemma raise_for_status_unfold (r : response) s :
  raise_for_status r s
  = if is_error_status (status_code r)
    then (s, Raise (Exn HTTPError (if status_code r <? 500
                                   then "Client Error" else "Server Error")))
    else (s, Ok tt).
Proof.
  unfold raise_for_status, is_error_status, raise, ret.
  destruct (Z.leb_spec 400 (status_code r)), (Z.ltb_spec (status_code r) 500),
    (Z.leb_spec 500 (status_code r)), (Z.ltb_spec (status_code r) 600);
    cbn; try reflexivity; lia.
Qed.

Lemma get_figi_unfold hw request s :
  get_figi hw request s
  = ({| locals_conn := locals_conn s; heap := heap s;
        out := out s ++ (get_figi_outcome hw request).1 |},
     (get_figi_outcome hw request).2).
Proof.
  unfold get_figi, get_figi_outcome. py_unfold.
  cbn [locals_conn heap out].
  destruct (requests_post hw url headers (json_dumps hw request)) as [e|resp]; cbn.
  { rewrite <- ?app_assoc. reflexivity. }
  rewrite raise_for_status_unfold.
  destruct (is_error_status (status_code resp)); cbn.
  { rewrite <- ?app_assoc. reflexivity. }
  destruct (json_body resp) as [e|j]; cbn.
  { rewrite <- ?app_assoc. reflexivity. }
  destruct (pd_DataFrame hw j) as [e|t]; cbn; rewrite <- ?app_assoc; reflexivity.
Qed.

Lemma run_get_figi hw request :
  run (get_figi hw request) = get_figi_outcome hw request.
Proof.
  unfold run. rewrite get_figi_unfold. cbn.
  by destruct (get_figi_outcome hw request).
Qed.

(** X1.  When the POST returns a response whose status is not 4xx or 5xx,
    the body parses as JSON and [pd.DataFrame] accepts it, [get_figi]
    returns that table, having printed the serialized payload and sent one
    POST and nothing else. *)
Theorem get_figi_success (hw : http_world) (request : json)
    (resp : response) (j : json) (t : DataFrame) :
  requests_post hw url headers (json_dumps hw request) = inr resp →
  ¬ (400 ≤ status_code resp < 600) →
  json_body resp = inr j →
  pd_DataFrame hw j = inr t →
  run (get_figi hw request)
  = ([EvPrint [[VStr (json_dumps hw request)]];
      EvPost url headers (json_dumps hw request)],
     Ok (Some t)).
Proof.
  intros Hpost Hst Hj Ht. rewrite run_get_figi. unfold get_figi_outcome.
  rewrite Hpost.
  destruct (is_error_status (status_code resp)) eqn:E.
  { apply is_error_status_spec in E. contradiction. }
  by rewrite Hj, Ht.
Qed.

Lemma get_figi_success_witness :
  run (get_figi http_ok payload)
  = ([EvPrint [[VStr "[...]"]]; EvPost url headers "[...]"], Ok (Some sample_frame)).
Proof.
  exact (get_figi_success http_ok payload
           {| status_code := 200; text := "..."; json_body := inr sample_answer |}
           sample_answer sample_frame eq_refl ltac:(cbn; lia) eq_refl eq_refl).
Defined.

(** X2.  Once the POST has returned a response, [get_figi] returns [None]
    exactly when the status is 4xx or 5xx: a 1xx, 2xx or 3xx answer is
    never reported as "no result". *)
Theorem get_figi_none_iff_error_status (hw : http_world) (request : json)
    (resp : response) :
  requests_post hw url headers (json_dumps hw request) = inr resp →
  (run (get_figi hw request)).2 = Ok None ↔ 400 ≤ status_code resp < 600.
Proof.
  intros Hpost. rewrite run_get_figi. unfold get_figi_outcome. rewrite Hpost.
  rewrite <- is_error_status_spec.
  destruct (is_error_status (status_code resp)); [done|].
  destruct (json_body resp) as [e|j]; [done|].
  destruct (pd_DataFrame hw j); done.
Qed.

Lemma get_figi_none_iff_error_status_witness :
  (run (get_figi http_not_modified payload)).2 = Ok None ↔ 400 ≤ 304 < 600.
Proof.
  exact (get_figi_none_iff_error_status http_not_modified payload
           {| status_code := 304; text := "...";
              json_body := inl (Exn JSONDecodeError "Expecting value") |} eq_refl).
Defined.

(** X3.  Lines 39-40 stand outside the [try]: with a status that is not
    4xx or 5xx, an exception raised by [response.json()] (a body that is
    not JSON) or by [pd.DataFrame] leaves [get_figi] as it is, and no
    diagnostic is printed. *)
Theorem get_figi_body_failure_propagates (hw : http_world) (request : json)
    (resp : response) :
  requests_post hw url headers (json_dumps hw request) = inr resp →
  ¬ (400 ≤ status_code resp < 600) →
  let sent := [EvPrint [[VStr (json_dumps hw request)]];
               EvPost url headers (json_dumps hw request)] in
  (∀ e, json_body resp = inl e → run (get_figi hw request) = (sent, Raise e))
  ∧ (∀ j e, json_body resp = inr j → pd_DataFrame hw j = inl e →
            run (get_figi hw request) = (sent, Raise e)).
Proof.
  intros Hpost Hst sent. rewrite run_get_figi. unfold get_figi_outcome.
  rewrite Hpost.
  destruct (is_error_status (status_code resp)) eqn:E.
  { apply is_error_status_spec in E. contradiction. }
  split.
  - by intros e ->.
  - by intros j e -> ->.
Qed.

Lemma get_figi_body_failure_propagates_witness :
  run (get_figi http_garbled payload)
  = ([EvPrint [[VStr "[...]"]]; EvPost url headers "[...]"],
     Raise (Exn JSONDecodeError "Expecting value")).
Proof.
  exact (proj1 (get_figi_body_failure_propagates http_garbled payload
                  {| status_code := 200; text := "...";
                     json_body := inl (Exn JSONDecodeError "Expecting value") |}
                  eq_refl ltac:(cbn; lia))
           (Exn JSONDecodeError "Expecting value") eq_refl).
Defined.

(** X4.  Whatever the service answers, a call of [get_figi] first prints
    the serialized payload and then sends exactly one POST, to the fixed
    URL with the two fixed headers and that payload as body; it never
    retries, writes no spreadsheet and does not touch the database. *)
Theorem get_figi_posts_once (hw : http_world) (request : json) :
  let tr := (run (get_figi hw request)).1 in
  posts tr = [(url, headers, json_dumps hw request)]
  ∧ written_frames tr = []
  ∧ issued_queries tr = []
  ∧ connect_attempts tr = []
  ∧ ∃ rest, tr = EvPrint [[VStr (json_dumps hw request)]]
                 :: EvPost url headers (json_dumps hw request) :: rest.
Proof.
  intros tr. subst tr. rewrite run_get_figi. unfold get_figi_outcome.
  destruct (requests_post hw url headers (json_dumps hw request)) as [e|resp];
    [by repeat split; eauto|].
  destruct (is_error_status (status_code resp)); [by repeat split; eauto|].
  destruct (json_body resp) as [e|j]; [by repeat split; eauto|].
  destruct (pd_DataFrame hw j); by repeat split; eauto.
Qed.

Lemma run_figi_script hw :
  run (figi_script hw) =
  match (get_figi_outcome hw payload).2 with
  | Ok (Some t) =>
      ((get_figi_outcome hw payload).1
         ++ [EvPrint [[VFrame t]]; EvToExcel "figi_output.xlsx" t],
       match to_excel hw "figi_output.xlsx" t with
       | Some e => Raise e
       | None => Ok tt
       end)
  | Ok None =>
      ((get_figi_outcome hw payload).1 ++ [EvPrint [[VNone]]],
       Raise (Exn AttributeError "'NoneType' object has no attribute 'to_excel'"))
  | Raise e => ((get_figi_outcome hw payload).1, Raise e)
  end.
Proof.
  unfold run, figi_script, bind. rewrite get_figi_unfold.
  destruct (get_figi_outcome hw payload) as [tr [[t|]|e]]; cbn.
  - unfold print, emit, modify, raise, ret. cbn.
    destruct (to_excel hw "figi_output.xlsx" t); cbn; rewrite <- ?app_assoc; reflexivity.
  - reflexivity.
  - reflexivity.
Qed.

Lemma written_frames_get_figi hw request :
  written_frames (get_figi_outcome hw request).1 = [].
Proof.
  unfold get_figi_outcome.
  destruct (requests_post hw url headers (json_dumps hw request)) as [e|resp]; [done|].
  destruct (is_error_status (status_code resp)); [done|].
  destruct (json_body resp) as [e|j]; [done|].
  by destruct (pd_DataFrame hw j).
Qed.

Lemma written_frames_app tr1 tr2 :
  written_frames (tr1 ++ tr2) = written_frames tr1 ++ written_frames tr2.
Proof. unfold written_frames. apply omap_app. Qed.

(** X5.  The script of [figiAPI.py] writes a spreadsheet only when
    [get_figi] returned a table: then it writes that table, once, to
    [figi_output.xlsx], and ends as the writer ends (a failure of
    [to_excel] is not caught); when [get_figi] returned [None] or raised,
    nothing is written and the script ends in an exception. *)
Theorem figi_script_writes_what_it_got (hw : http_world) :
  match (run (get_figi hw payload)).2 with
  | Ok (Some t) =>
      written_frames (run (figi_script hw)).1 = [("figi_output.xlsx", t)]
      ∧ (run (figi_script hw)).2 = match to_excel hw "figi_output.xlsx" t with
                                   | Some e => Raise e
                                   | None => Ok tt
                                   end
  | Ok None =>
      written_frames (run (figi_script hw)).1 = []
      ∧ (run (figi_script hw)).2
        = Raise (Exn AttributeError "'NoneType' object has no attribute 'to_excel'")
  | Raise e =>
      written_frames (run (figi_script hw)).1 = []
      ∧ run (figi_script hw) = ((run (get_figi hw payload)).1, Raise e)
  end.
Proof.
  rewrite run_figi_script, run_get_figi.
  pose proof (written_frames_get_figi hw payload) as Hw.
  destruct (get_figi_outcome hw payload) as [tr [[t|]|e]]; cbn [fst snd] in *.
  - by rewrite written_frames_app, Hw.
  - by rewrite written_frames_app, Hw.
  - done.
Qed.

(** ** More on the mapper *)

(** X6.  Given a table with distinct column names and a dictionary,
    [map_exchange_id_to_code] returns exactly when the table has an
    [ExchangeId] column; without it the call raises [KeyError] and leaves
    the table, the dictionary and the console as they were. *)
Theorem map_needs_exchange_id (s : state) (p m : loc)
    (t : DataFrame) (d : gmap Z string) :
  heap s !! p = Some (ODataFrame t) →
  heap s !! m = Some (ODict d) →
  unique_columns t →
  (getitem t "ExchangeId" = None →
     map_exchange_id_to_code p m s = (s, Raise (Exn KeyError "ExchangeId")))
  ∧ ((map_exchange_id_to_code p m s).2 = Ok p ↔ is_Some (getitem t "ExchangeId")).
Proof.
  intros Hp Hm _. unfold map_exchange_id_to_code. py_unfold. rewrite Hp, Hm.
  destruct (getitem t "ExchangeId") as [ids|]; cbn.
  - split; [done|]. split; eauto.
  - split; [done|]. split; [done|]. by intros [? ?].
Qed.

Lemma map_needs_exchange_id_witness :
  map_exchange_id_to_code 1%positive 2%positive state_without_exchange
  = (state_without_exchange, Raise (Exn KeyError "ExchangeId")).
Proof.
  exact (proj1 (map_needs_exchange_id state_without_exchange 1%positive 2%positive
                  {| nrows := 1; columns := [("Identifier", [CStr "US0378331005"])] |}
                  (<[7 := "NYSE"]> ∅) eq_refl eq_refl ltac:(by_decide)) eq_refl).
Defined.

(** X7.  Where the new column goes, for a table with distinct column
    names (identifiers and keys in the range a float64 holds exactly): a
    table that had no [ExchangeCode] column gets it appended after all
    its columns; a table that already had one keeps its column names and
    their order, the old values being overwritten in place. *)
Theorem map_column_placement (s : state) (p m : loc)
    (t : DataFrame) (d : gmap Z string) (ids : Series) :
  heap s !! p = Some (ODataFrame t) →
  heap s !! m = Some (ODict d) →
  getitem t "ExchangeId" = Some ids →
  unique_columns t →
  exact_cells ids →
  exact_keys d →
  ∃ s' t',
    map_exchange_id_to_code p m s = (s', Ok p)
    ∧ heap s' !! p = Some (ODataFrame t')
    ∧ (getitem t "ExchangeCode" = None →
         columns t' = columns t ++ [("ExchangeCode", Series_map ids d)])
    ∧ (is_Some (getitem t "ExchangeCode") →
         map fst (columns t') = map fst (columns t)).
Proof.
  intros Hp Hm Hids _ _ _.
  eexists _, (setitem t "ExchangeCode" (Series_map ids d)).
  split; [by apply map_exchange_id_to_code_unfold|].
  cbn [heap]. split; [by rewrite lookup_insert_eq|].
  unfold getitem, setitem. cbn [columns]. split.
  - apply assign_column_new.
  - apply assign_column_names.
Qed.

Lemma map_column_placement_witness :
  ∃ s' t',
    map_exchange_id_to_code 1%positive 2%positive state_already_coded = (s', Ok 1%positive)
    ∧ heap s' !! 1%positive = Some (ODataFrame t')
    ∧ (getitem {| nrows := 2;
                  columns := [("ExchangeCode", [CStr "old"; CStr "old"]);
                              ("ExchangeId", [CInt 7; CInt 8])] |} "ExchangeCode" = None →
         columns t' = [("ExchangeCode", [CStr "old"; CStr "old"]);
                       ("ExchangeId", [CInt 7; CInt 8])]
                      ++ [("ExchangeCode",
                           Series_map [CInt 7; CInt 8] (<[7 := "NYSE"]> ∅))])
    ∧ (is_Some (getitem {| nrows := 2;
                           columns := [("ExchangeCode", [CStr "old"; CStr "old"]);
                                       ("ExchangeId", [CInt 7; CInt 8])] |} "ExchangeCode") →
         map fst (columns t') = ["ExchangeCode"; "ExchangeId"]).
Proof.
  exact (map_column_placement state_already_coded 1%positive 2%positive
           {| nrows := 2;
              columns := [("ExchangeCode", [CStr "old"; CStr "old"]);
                          ("ExchangeId", [CInt 7; CInt 8])] |}
           (<[7 := "NYSE"]> ∅) [CInt 7; CInt 8] eq_refl eq_refl eq_refl
           ltac:(by_decide) ltac:(in_range) ltac:(in_range)).
Defined.

(** X8.  For a table with distinct column names: if every column of the
    input table is as long as its index, the same holds of the table
    after the call. *)
Theorem map_keeps_table_well_formed (s : state) (p m : loc)
    (t : DataFrame) (d : gmap Z string) (ids : Series) :
  heap s !! p = Some (ODataFrame t) →
  heap s !! m = Some (ODict d) →
  getitem t "ExchangeId" = Some ids →
  unique_columns t →
  well_formed t →
  ∃ s' t',
    map_exchange_id_to_code p m s = (s', Ok p)
    ∧ heap s' !! p = Some (ODataFrame t')
    ∧ well_formed t'.
Proof.
  intros Hp Hm Hids _ Hwf.
  eexists _, (setitem t "ExchangeCode" (Series_map ids d)).
  split; [by apply map_exchange_id_to_code_unfold|].
  cbn [heap]. split; [by rewrite lookup_insert_eq|].
  unfold well_formed, setitem in *. cbn [columns nrows].
  apply assign_column_Forall; [exact Hwf|]. cbn [snd].
  unfold Series_map. rewrite length_map.
  apply lookup_column_elem in Hids.
  rewrite Forall_forall in Hwf. exact (Hwf _ Hids).
Qed.

Lemma map_keeps_table_well_formed_witness :
  ∃ s' t',
    map_exchange_id_to_code 1%positive 2%positive sample_state = (s', Ok 1%positive)
    ∧ heap s' !! 1%positive = Some (ODataFrame t')
    ∧ well_formed t'.
Proof.
  exact (map_keeps_table_well_formed sample_state 1%positive 2%positive
           (frame_of_rows sample_table) (<[7 := "NYSE"]> ∅) [CInt 7; CInt 9; CInt 9]
           eq_refl eq_refl eq_refl ltac:(by_decide)
           (frame_of_rows_well_formed sample_table)).
Defined.

(** ** More on the fetcher *)

Lemma execute_returns w ids t :
  execute w (sql_query ids) ids = inr t →
  ids ≠ []
  ∧ t = frame_of_rows (take 10 (filter (λ r, matches ids r = true) (table w))).
Proof.
  unfold execute. destruct (query_fault w); [done|].
  destruct ids as [|i ids].
  { by rewrite parse_select_empty. }
  rewrite parse_select_sql_query by done.
  rewrite Nat.eqb_refl. by intros [= <-].
Qed.

Lemma run_pull_returns w ids t :
  (run (pull_data_from_database w ids)).2 = Ok t →
  ∃ c, pyodbc_connect w (conn_str_of w) = inr c
       ∧ execute w (sql_query ids) ids = inr t.
Proof.
  rewrite run_pull. unfold pull_outcome.
  destruct (pyodbc_connect w (conn_str_of w)) as [e|c].
  { by destruct (is_pyodbc_error e). }
  destruct (execute w (sql_query ids) ids) as [e|t'].
  { by destruct (is_pyodbc_error e). }
  cbn. intros [= ->]. eauto.
Qed.

(** X9.  The handler of [pull_data_from_database] catches [pyodbc.Error]
    only: any other exception raised by [pyodbc.connect] leaves the call
    unchanged, with no message printed, no exit status set, no query
    issued and nothing closed. *)
Theorem other_connect_failure_propagates (w : db_world) (ids : list string) (e : exn) :
  pyodbc_connect w (conn_str_of w) = inl e →
  is_pyodbc_error e = false →
  run (pull_data_from_database w ids) = ([EvConnect (conn_str_of w)], Raise e).
Proof.
  intros Hc He. rewrite run_pull. unfold pull_outcome. by rewrite Hc, He.
Qed.

Lemma other_connect_failure_propagates_witness :
  run (pull_data_from_database world_interrupted id_list)
  = ([EvConnect (conn_str_of world_interrupted)],
     Raise (Exn OSError "Interrupted system call")).
Proof.
  exact (other_connect_failure_propagates world_interrupted id_list
           (Exn OSError "Interrupted system call") eq_refl eq_refl).
Defined.

(** X10.  In every call, whatever happens, [pyodbc.connect] is attempted
    exactly once; a query is issued only if the connection opened, and
    then exactly one; the call sends no HTTP request and writes no file. *)
Theorem one_attempt_one_query (w : db_world) (ids : list string) :
  let tr := (run (pull_data_from_database w ids)).1 in
  connect_attempts tr = [conn_str_of w]
  ∧ issued_queries tr = match pyodbc_connect w (conn_str_of w) with
                        | inr _ => [(sql_query ids, ids)]
                        | inl _ => []
                        end
  ∧ posts tr = []
  ∧ written_frames tr = [].
Proof.
  intros tr. subst tr. rewrite run_pull. unfold pull_outcome.
  destruct (pyodbc_connect w (conn_str_of w)) as [e|c].
  { by destruct (is_pyodbc_error e). }
  destruct (execute w (sql_query ids) ids) as [e|t];
    [destruct (is_pyodbc_error e)|]; done.
Qed.

(** X11.  When a call returns a table, the connection had opened, the
    table is the one [pd.read_sql_query] produced, unaltered, and the
    "Retrieved n rows." message printed between the query and the close
    reports exactly its row count. *)
Theorem pull_returns_what_was_read (w : db_world) (ids : list string) (t : DataFrame) :
  (run (pull_data_from_database w ids)).2 = Ok t →
  ∃ c,
    pyodbc_connect w (conn_str_of w) = inr c
    ∧ execute w (sql_query ids) ids = inr t
    ∧ (run (pull_data_from_database w ids)).1
      = opening_events w ids c
        ++ EvPrint [[VStr "Retrieved "; VInt (Z.of_nat (nrows t)); VStr " rows."]]
        :: closing_events c.
Proof.
  intros Hr. destruct (run_pull_returns _ _ _ Hr) as (c & Hc & He).
  exists c. split; [done|]. split; [done|].
  rewrite run_pull. unfold pull_outcome. by rewrite Hc, He.
Qed.

Lemma pull_returns_what_was_read_witness :
  ∃ c,
    pyodbc_connect world_up (conn_str_of world_up) = inr c
    ∧ execute world_up (sql_query id_list) id_list
      = inr (frame_of_rows (take 10 (filter (λ r, matches id_list r = true) sample_table)))
    ∧ (run (pull_data_from_database world_up id_list)).1
      = opening_events world_up id_list c
        ++ EvPrint [[VStr "Retrieved ";
                     VInt (Z.of_nat (nrows (frame_of_rows
                       (take 10 (filter (λ r, matches id_list r = true) sample_table)))));
                     VStr " rows."]]
        :: closing_events c.
Proof.
  exact (pull_returns_what_was_read world_up id_list
           (frame_of_rows (take 10 (filter (λ r, matches id_list r = true) sample_table)))
           eq_refl).
Defined.

(** X13.  The two components compose: a table returned by
    [pull_data_from_database] always has the [ExchangeId] column, so
    [map_exchange_id_to_code] on it never raises; the result has the
    fetched columns followed by [ExchangeCode], at most ten rows, and
    columns as long as its index. *)
Theorem fetched_table_can_be_mapped (w : db_world) (ids : list string) (t : DataFrame)
    (s : state) (p m : loc) (d : gmap Z string) :
  (run (pull_data_from_database w ids)).2 = Ok t →
  heap s !! p = Some (ODataFrame t) →
  heap s !! m = Some (ODict d) →
  ∃ s' t',
    map_exchange_id_to_code p m s = (s', Ok p)
    ∧ heap s' !! p = Some (ODataFrame t')
    ∧ map fst (columns t')
      = ["InvestmentId"; "ExchangeId"; ""; "Identifier"; "ExchangeCode"]
    ∧ (nrows t' ≤ 10)%nat
    ∧ well_formed t'.
Proof.
  intros Hr Hp Hm. destruct (run_pull_returns _ _ _ Hr) as (c & Hc & He).
  apply execute_returns in He as [Hne ->].
  set (rows := take 10 (filter (λ r, matches ids r = true) (table w))) in *.
  eexists _, (setitem (frame_of_rows rows) "ExchangeCode"
                (Series_map (map (λ r, CInt (ExchangeId r)) rows) d)).
  split; [by apply (map_exchange_id_to_code_unfold _ _ _ _ _ _ Hp Hm eq_refl)|].
  cbn [heap]. split; [by rewrite lookup_insert_eq|].
  split; [reflexivity|]. split.
  - cbn. unfold rows. rewrite length_take. lia.
  - unfold well_formed. cbn.
    repeat constructor; cbn; unfold Series_map; by rewrite ?length_map.
Qed.

Lemma fetched_table_can_be_mapped_witness :
  ∃ s' t',
    map_exchange_id_to_code 1%positive 2%positive state_fetched = (s', Ok 1%positive)
    ∧ heap s' !! 1%positive = Some (ODataFrame t')
    ∧ map fst (columns t')
      = ["InvestmentId"; "ExchangeId"; ""; "Identifier"; "ExchangeCode"]
    ∧ (nrows t' ≤ 10)%nat
    ∧ well_formed t'.
Proof.
  exact (fetched_table_can_be_mapped world_up id_list
           (frame_of_rows (take 10 (filter (λ r, matches id_list r = true) sample_table)))
           state_fetched 1%positive 2%positive (<[7 := "NYSE"]> ∅)
           eq_refl eq_refl eq_refl).
Defined.

Lemma conn_str_of_ext w w' :
  getenv w "SERVER" = getenv w' "SERVER" →
  getenv w "DATABASE" = getenv w' "DATABASE" →
  getenv w "USERNAME" = getenv w' "USERNAME" →
  getenv w "PASSWORD" = getenv w' "PASSWORD" →
  conn_str_of w = conn_str_of w'.
Proof. unfold conn_str_of. by intros -> -> -> ->. Qed.

(** X14.  A call reads the environment only through [SERVER],
    [DATABASE], [USERNAME] and [PASSWORD]: two surroundings that agree on
    these four, on the driver and on the database give the same run.
    [TABLE_NAME], though read on line 15, changes nothing. *)
Theorem only_four_settings_matter (w w' : db_world) (ids : list string) :
  getenv w "SERVER" = getenv w' "SERVER" →
  getenv w "DATABASE" = getenv w' "DATABASE" →
  getenv w "USERNAME" = getenv w' "USERNAME" →
  getenv w "PASSWORD" = getenv w' "PASSWORD" →
  (∀ cs, pyodbc_connect w cs = pyodbc_connect w' cs) →
  table w = table w' →
  query_fault w = query_fault w' →
  run (pull_data_from_database w ids) = run (pull_data_from_database w' ids).
Proof.
  intros H1 H2 H3 H4 Hc Ht Hf.
  rewrite !run_pull. unfold pull_outcome, opening_events, execute.
  rewrite (conn_str_of_ext w w') by done.
  by rewrite Hc, Ht, Hf.
Qed.

Lemma only_four_settings_matter_witness :
  run (pull_data_from_database world_other_table id_list)
  = run (pull_data_from_database world_up id_list).
Proof.
  exact (only_four_settings_matter world_other_table world_up id_list
           eq_refl eq_refl eq_refl eq_refl (λ _, eq_refl) eq_refl eq_refl).
Defined.

(** X15.  [main.py]: when the fetch returns a table, the script prints
    "Data pull complete." and the first rows of the table, at most five,
    and ends normally; when the fetch fails, the script ends with that
    failure and prints nothing after the fetch's own output. *)
Theorem main_stops_where_the_fetch_fails (w : db_world) :
  (∀ t, (run (pull_data_from_database w id_list)).2 = Ok t →
        run (main w)
        = (EvPrint [[VStr "Starting data pull..."]]
             :: (run (pull_data_from_database w id_list)).1
             ++ [EvPrint [[VStr "Data pull complete."]]; EvPrint [[VFrame (head t)]]],
           Ok tt)
        ∧ (nrows (head t) ≤ 5)%nat)
  ∧ (∀ e, (run (pull_data_from_database w id_list)).2 = Raise e →
          run (main w)
          = (EvPrint [[VStr "Starting data pull..."]]
               :: (run (pull_data_from_database w id_list)).1,
             Raise e)).
Proof.
  rewrite run_main, run_pull. split.
  - intros t ->. split; [reflexivity|]. unfold head. cbn [nrows]. lia.
  - by intros e ->.
Qed.

Lemma main_stops_where_the_fetch_fails_witness :
  run (main world_pandas_fault)
  = (EvPrint [[VStr "Starting data pull..."]]
       :: (run (pull_data_from_database world_pandas_fault id_list)).1,
     Raise (Exn PandasDatabaseError "Execution failed on sql")).
Proof.
  exact (proj2 (main_stops_where_the_fetch_fails world_pandas_fault)
           (Exn PandasDatabaseError "Execution failed on sql") eq_refl).
Defined.

Lemma execute_ext w w' sql params :
  table w = table w' → query_fault w = query_fault w' →
  execute w sql params = execute w' sql params.
Proof. unfold execute. by intros -> ->. Qed.

(** X16.  The settings reach the driver and nothing else: two runs whose
    environments differ in server, database, user or password, but in
    which the driver and the database answer alike, print exactly the
    same and end alike, and each hands its own connection string to
    [pyodbc.connect], once. *)
Theorem console_does_not_depend_on_settings (w w' : db_world) (ids : list string) :
  pyodbc_connect w (conn_str_of w) = pyodbc_connect w' (conn_str_of w') →
  table w = table w' →
  query_fault w = query_fault w' →
  printed (run (pull_data_from_database w ids)).1
  = printed (run (pull_data_from_database w' ids)).1
  ∧ (run (pull_data_from_database w ids)).2 = (run (pull_data_from_database w' ids)).2
  ∧ connect_attempts (run (pull_data_from_database w ids)).1 = [conn_str_of w]
  ∧ connect_attempts (run (pull_data_from_database w' ids)).1 = [conn_str_of w'].
Proof.
  intros Hc Ht Hf. rewrite !run_pull. unfold pull_outcome.
  rewrite Hc, (execute_ext w w') by done.
  destruct (pyodbc_connect w' (conn_str_of w')) as [e|c].
  { by destruct (is_pyodbc_error e). }
  destruct (execute w' (sql_query ids) ids) as [e|t];
    [destruct (is_pyodbc_error e)|]; done.
Qed.

Lemma console_does_not_depend_on_settings_witness :
  printed (run (pull_data_from_database world_up id_list)).1
  = printed (run (pull_data_from_database world_other_password id_list)).1
  ∧ (run (pull_data_from_database world_up id_list)).2
    = (run (pull_data_from_database world_other_password id_list)).2
  ∧ connect_attempts (run (pull_data_from_database world_up id_list)).1
    = [conn_str_of world_up]
  ∧ connect_attempts (run (pull_data_from_database world_other_password id_list)).1
    = [conn_str_of world_other_password].
Proof.
  exact (console_does_not_depend_on_settings world_up world_other_password id_list
           eq_refl eq_refl eq_refl).
Defined.

Lemma assign_column_twice name s1 s2 cols :
  assign_column name s2 (assign_column name s1 cols) = assign_column name s2 cols.
Proof.
  induction cols as [|[c old] rest IH]; cbn [assign_column].
  - by rewrite String.eqb_refl.
  - destruct (String.eqb c name) eqn:E; cbn [assign_column]; rewrite E; [done|].
    by rewrite IH.
Qed.

(** X17.  For a table with distinct column names (identifiers and keys
    in the range a float64 holds exactly): mapping it with one dictionary
    and then with another leaves exactly the state that mapping with the
    second alone would: the last mapping wins and no trace of the first
    remains. *)
Theorem last_mapping_wins (s : state) (p m1 m2 : loc)
    (t : DataFrame) (d1 d2 : gmap Z string) (ids : Series) :
  heap s !! p = Some (ODataFrame t) →
  heap s !! m1 = Some (ODict d1) →
  heap s !! m2 = Some (ODict d2) →
  getitem t "ExchangeId" = Some ids →
  unique_columns t →
  exact_cells ids →
  exact_keys d1 →
  exact_keys d2 →
  ∃ s1 s2,
    map_exchange_id_to_code p m1 s = (s1, Ok p)
    ∧ map_exchange_id_to_code p m2 s1 = (s2, Ok p)
    ∧ map_exchange_id_to_code p m2 s = (s2, Ok p).
Proof.
  intros Hp Hm1 Hm2 Hids _ _ _ _.
  assert (p ≠ m2) as Hpm by congruence.
  set (t1 := setitem t "ExchangeCode" (Series_map ids d1)).
  assert (getitem t1 "ExchangeId" = Some ids) as Hids1.
  { unfold t1, getitem, setitem. cbn [columns].
    rewrite lookup_assign_column_ne; done. }
  eexists _, _. split; [by apply map_exchange_id_to_code_unfold|].
  rewrite (map_exchange_id_to_code_unfold _ p m2 t1 d2 ids); cbn [heap locals_conn out].
  - split; [reflexivity|].
    rewrite (map_exchange_id_to_code_unfold _ p m2 t d2 ids) by done.
    rewrite insert_insert_eq. unfold t1, setitem. cbn [columns nrows].
    by rewrite assign_column_twice.
  - by rewrite lookup_insert_eq.
  - by rewrite lookup_insert_ne.
  - exact Hids1.
Qed.

Lemma last_mapping_wins_witness :
  ∃ s1 s2,
    map_exchange_id_to_code 1%positive 2%positive state_two_mappings = (s1, Ok 1%positive)
    ∧ map_exchange_id_to_code 1%positive 3%positive s1 = (s2, Ok 1%positive)
    ∧ map_exchange_id_to_code 1%positive 3%positive state_two_mappings
      = (s2, Ok 1%positive).
Proof.
  exact (last_mapping_wins state_two_mappings 1%positive 2%positive 3%positive
           (frame_of_rows sample_table) (<[7 := "NYSE"]> ∅) (<[9 := "XETR"]> ∅)
           [CInt 7; CInt 9; CInt 9] eq_refl eq_refl eq_refl eq_refl
           ltac:(by_decide) ltac:(in_range) ltac:(in_range) ltac:(in_range)).
Defined.
